(** * cism: a state machine driven by a state transition table

    Shallow embedding of the Go package [cism] (state.go, machine.go,
    errors.go) and the properties of its lifecycle contract.

    Modelling conventions.
    - [State] and [Event] are Go [int]s used only as map keys and compared
      for equality; no arithmetic is done on them, so they are embedded as
      [Z] and every statement quantified over [Z] covers the machine range.
    - [StateTransitionTable] is [map[State]map[Event]*Transition]: a finite
      map of finite maps whose values are nilable pointers ([option]).  A nil
      map reads like an empty one and the package never writes to the table.
    - A [Transition] holds Go closures.  A closure reads and writes the
      variables of the host program it was built in; that host state is the
      type [W] below and a hook is a function over it.  Hooks do not call
      back into the machine they are attached to.
    - [endevt] is a pointer into the history log; the pointed-to record is
      never overwritten, so the pointer is embedded as the value it reads.
    - The methods of [*Machine] are commands of a small state monad over the
      machine and the host.  The host carries a ghost trace of the hook
      invocations so that "invoked exactly once" can be stated. *)

From Stdlib Require Import ZArith String List.
From stdpp Require Import gmap list.
Import ListNotations.

Abbreviation State := Z (only parsing).
Abbreviation Event := Z (only parsing).

(** ** errors.go *)

Inductive error : Type :=
| ErrMissingStates (msg : string)
| ErrStateNotDefined (s : State) (msg : string)
| ErrMachineStopped (FinalEvent : option Event) (msg : string)
| ErrMachineStarted (msg : string)
| ErrMissingTransition (s : State) (e : Event) (msg : string)
| ErrMachineNotStarted (msg : string)
| ErrMachineNotStopped (msg : string).

(** [Error()] returns the message assigned at creation. *)
Definition Error (err : error) : string :=
  match err with
  | ErrMissingStates msg | ErrStateNotDefined _ msg | ErrMachineStopped _ msg
  | ErrMachineStarted msg | ErrMissingTransition _ _ msg
  | ErrMachineNotStarted msg | ErrMachineNotStopped msg => msg
  end.

(** ** machine.go, data *)

Record HistoryRecord : Type := mkHistoryRecord {
  rec_State : State;
  rec_Event : Event
}.

(** Ghost trace of hook invocations. *)
Inductive Hook : Type := HGuard | HOnFail | HOnSuccess.

Record Call : Type := mkCall {
  call_hook : Hook;
  call_state : State;
  call_event : Event
}.

#[global] Instance Hook_eq_dec : EqDecision Hook.
Proof. solve_decision. Defined.

Definition count_calls (k : Hook) (tr : list Call) : nat :=
  length (filter (fun c => call_hook c = k) tr).

Section Machine.

Context {W : Type}.

(** ** state.go *)

Record Transition : Type := mkTransition {
  Guard : option (State -> Event -> W -> bool * W);
  IsFinal : bool;
  OnFail : option (State -> Event -> W -> W);
  OnSuccess : option (State -> Event -> W -> W);
  To : State
}.

#[local] Abbreviation StateTransitionTable := (gmap Z (gmap Z (option Transition))).

Definition GetTransition (stt : StateTransitionTable) (s : State) (e : Event)
  : option Transition :=
  match stt !! s with
  | None => None
  | Some events =>
      match events !! e with
      | Some tran => tran
      | None => None
      end
  end.

(** Go ranges over a map in an unspecified order; the model lists the keys
    in the order of [map_to_list] and only membership is ever relied on. *)
Definition GetEventsForState (stt : StateTransitionTable) (s : State)
  : list Event :=
  match stt !! s with
  | None => []
  | Some events => fold_left (fun evs p => evs ++ [fst p]) (map_to_list events) []
  end.

Definition GetStatesForEvent (stt : StateTransitionTable) (e : Event)
  : list State :=
  if (size stt =? 0)%nat then []
  else
    fold_left
      (fun states p =>
         fold_left
           (fun states q =>
              if decide (fst q = e) then states ++ [fst p] else states)
           (map_to_list (snd p)) states)
      (map_to_list stt) [].

(** ** machine.go *)

Record Machine : Type := mkMachine {
  States : StateTransitionTable;
  curr : State;
  done : bool;
  endevt : option Event;
  hist : list HistoryRecord;
  initial : State;
  started : bool
}.

(** [&cism.Machine{States: stt}]: every other field has its zero value. *)
Definition New (stt : StateTransitionTable) : Machine :=
  {| States := stt; curr := 0; done := false; endevt := None;
     hist := []; initial := 0; started := false |}.

Definition set_curr (s : State) (m : Machine) : Machine :=
  {| States := States m; curr := s; done := done m; endevt := endevt m;
     hist := hist m; initial := initial m; started := started m |}.

Definition set_done (b : bool) (m : Machine) : Machine :=
  {| States := States m; curr := curr m; done := b; endevt := endevt m;
     hist := hist m; initial := initial m; started := started m |}.

Definition set_endevt (p : option Event) (m : Machine) : Machine :=
  {| States := States m; curr := curr m; done := done m; endevt := p;
     hist := hist m; initial := initial m; started := started m |}.

Definition set_hist (l : list HistoryRecord) (m : Machine) : Machine :=
  {| States := States m; curr := curr m; done := done m; endevt := endevt m;
     hist := l; initial := initial m; started := started m |}.

Definition set_initial (s : State) (m : Machine) : Machine :=
  {| States := States m; curr := curr m; done := done m; endevt := endevt m;
     hist := hist m; initial := s; started := started m |}.

Definition set_started (b : bool) (m : Machine) : Machine :=
  {| States := States m; curr := curr m; done := done m; endevt := endevt m;
     hist := hist m; initial := initial m; started := b |}.

(** The host program: its own variables and the ghost trace. *)
Record Host : Type := mkHost {
  world : W;
  calls : list Call
}.

(** Commands: a state monad over the receiver and the host. *)
Definition M (A : Type) : Type := Machine -> Host -> A * Machine * Host.

Definition ret {A} (a : A) : M A := fun m h => (a, m, h).

Definition bind {A B} (c : M A) (k : A -> M B) : M B :=
  fun m h => let '(a, m', h') := c m h in k a m' h'.

Definition self : M Machine := fun m h => (m, m, h).

Definition assign (f : Machine -> Machine) : M unit :=
  fun m h => (tt, f m, h).

Definition call_guard (g : State -> Event -> W -> bool * W)
  (s : State) (e : Event) : M bool :=
  fun m h =>
    let '(b, w) := g s e (world h) in
    (b, m, {| world := w; calls := calls h ++ [mkCall HGuard s e] |}).

Definition call_hook_fn (k : Hook) (f : State -> Event -> W -> W)
  (s : State) (e : Event) : M unit :=
  fun m h =>
    (tt, m, {| world := f s e (world h); calls := calls h ++ [mkCall k s e] |}).

(** The three components of a run of a command. *)
Definition result_of {A} (c : M A) (m : Machine) (h : Host) : A :=
  fst (fst (c m h)).

Definition machine_after {A} (c : M A) (m : Machine) (h : Host) : Machine :=
  snd (fst (c m h)).

Definition host_after {A} (c : M A) (m : Machine) (h : Host) : Host :=
  snd (c m h).

Notation "'let*' x := c 'in' k" := (bind c (fun x => k))
  (at level 10, x name, c at level 100, k at level 200).

Definition Start (s : State) : M (option error) :=
  let* m := self in
  if (size (States m) =? 0)%nat then
    ret (Some (ErrMissingStates "no states set"))
  else
    match States m !! s with
    | None => ret (Some (ErrStateNotDefined s "start state not defined in states"))
    | Some _ =>
        if done m then
          ret (Some (ErrMachineStopped (endevt m) "machine is done and cannot be started"))
        else if started m then
          ret (Some (ErrMachineStarted "machine has already started"))
        else
          let* _ := assign (set_curr s) in
          let* _ := assign (set_done false) in
          let* _ := assign (set_initial s) in
          let* _ := assign (set_started true) in
          ret None
    end.

Definition stop : M unit :=
  let* m := self in
  let histlen := length (hist m) in
  let* _ :=
    if (0 <? histlen)%nat then
      match hist m !! (histlen - 1)%nat with
      | Some r => assign (set_endevt (Some (rec_Event r)))
      | None => ret tt
      end
    else ret tt in
  assign (set_done true).

Definition transition (tran : Transition) (e : Event) : M unit :=
  let* m := self in
  let currstate := curr m in
  let* pass :=
    match Guard tran with
    | None => ret true
    | Some g => call_guard g currstate e
    end in
  if pass then
    let* _ := assign (fun m => set_hist (hist m ++ [mkHistoryRecord currstate e]) m) in
    let* _ := assign (set_curr (To tran)) in
    let* _ :=
      match OnSuccess tran with
      | Some f => call_hook_fn HOnSuccess f currstate e
      | None => ret tt
      end in
    if IsFinal tran then stop else ret tt
  else
    match OnFail tran with
    | Some f => call_hook_fn HOnFail f currstate e
    | None => ret tt
    end.

Definition Send (e : Event) : M (option error) :=
  let* m := self in
  if negb (started m) then
    ret (Some (ErrMachineNotStarted "machine has not started"))
  else if done m then
    ret (Some (ErrMachineStopped (endevt m) "machine is done and not accepting transitions"))
  else
    match GetTransition (States m) (curr m) e with
    | Some tran => let* _ := transition tran e in ret None
    | None =>
        ret (Some (ErrMissingTransition (curr m) e
                     "no transition found for event in current state"))
    end.

Definition Stop : M unit := stop.

Definition Reset : M (option error) :=
  let* m := self in
  if negb (done m) then
    ret (Some (ErrMachineNotStopped "machine has not stopped"))
  else
    let* _ := assign (set_done false) in
    let* _ := assign (set_endevt None) in
    let* _ := assign (set_hist []) in
    let* _ := assign (fun m => set_curr (initial m) m) in
    let* _ := assign (set_started false) in
    ret None.

Definition Current (m : Machine) : State := curr m.

(** [History] copies the log into a fresh slice: the value of the log. *)
Definition History (m : Machine) : list HistoryRecord := hist m.

(** ** Lifecycle *)

Inductive Lifecycle : Type := unstarted | running | stopped.

Definition lifecycle (m : Machine) : Lifecycle :=
  if done m then stopped else if started m then running else unstarted.

Inductive Op : Type :=
| OpStart (s : State)
| OpSend (e : Event)
| OpStop
| OpReset.

Definition run_op (op : Op) : M (option error) :=
  match op with
  | OpStart s => Start s
  | OpSend e => Send e
  | OpStop => let* _ := Stop in ret None
  | OpReset => Reset
  end.

Fixpoint run_ops (ops : list Op) : M (list (option error)) :=
  match ops with
  | [] => ret []
  | op :: ops' =>
      let* r := run_op op in
      let* rs := run_ops ops' in
      ret (r :: rs)
  end.

End Machine.

Arguments Transition : clear implicits.
Arguments Machine : clear implicits.
Arguments Host : clear implicits.

(** The table type as seen from outside the section. *)
Abbreviation StateTransitionTable W := (gmap Z (gmap Z (option (Transition W)))).

(** ** The example program of the package documentation (doc.go, README) *)

Module Readme.

Definition Begin : State := 0.
Definition Middle : State := 1.
Definition End : State := 2.

Definition SetupDone : Event := 0.
Definition WorkComplete : Event := 1.

(** The variables the closures of [main] capture: the flag
    [workReallyComplete] and what was printed so far. *)
Record Vars : Type := mkVars {
  workReallyComplete : bool;
  printed : list string
}.

Definition println (line : string) (v : Vars) : Vars :=
  {| workReallyComplete := workReallyComplete v; printed := printed v ++ [line] |}.

(** The two transitions of the table. *)
Definition setup_done : Transition Vars :=
  {| Guard := None; IsFinal := false; OnFail := None;
     OnSuccess := Some (fun _ _ =>
       println "left 'Begin' state and entered 'Middle' state");
     To := Middle |}.

Definition work_complete : Transition Vars :=
  {| Guard := Some (fun _ _ v => (workReallyComplete v, v));
     IsFinal := true;
     OnFail := Some (fun _ _ v =>
       {| workReallyComplete := true; printed := printed v |});
     OnSuccess := Some (fun _ _ =>
       println "left 'Middle' state and entered 'End' state");
     To := End |}.

Definition stt : StateTransitionTable Vars :=
  {[ Begin := {[ SetupDone := Some setup_done ]};
     Middle := {[ WorkComplete := Some work_complete ]};
     End := ∅ ]}.

Definition machine : Machine Vars := New stt.

Definition host : Host Vars :=
  {| world := {| workReallyComplete := false; printed := [] |}; calls := [] |}.

(** The machine and host after [machine.Start(Begin)]. *)
Definition machine1 : Machine Vars := machine_after (Start Begin) machine host.
Definition host1 : Host Vars := host_after (Start Begin) machine host.

(** ... after [machine.Send(SetupDone)]. *)
Definition machine2 : Machine Vars := machine_after (Send SetupDone) machine1 host1.
Definition host2 : Host Vars := host_after (Send SetupDone) machine1 host1.

(** ... after the first [machine.Send(WorkComplete)], which the guard refuses. *)
Definition machine3 : Machine Vars := machine_after (Send WorkComplete) machine2 host2.
Definition host3 : Host Vars := host_after (Send WorkComplete) machine2 host2.

(** ... after the second [machine.Send(WorkComplete)], which is final. *)
Definition machine4 : Machine Vars := machine_after (Send WorkComplete) machine3 host3.
Definition host4 : Host Vars := host_after (Send WorkComplete) machine3 host3.

End Readme.

(** ** Test fixtures of machine_test.go *)

Module Fixture.

(** [&cism.Transition{}] *)
Definition zero_tran : Transition unit :=
  {| Guard := None; IsFinal := false; OnFail := None; OnSuccess := None; To := 0 |}.

(** [&cism.Transition{To: state2}] *)
Definition to2 : Transition unit :=
  {| Guard := None; IsFinal := false; OnFail := None; OnSuccess := None; To := 2 |}.

(** [&cism.Transition{IsFinal: true}] *)
Definition final_tran : Transition unit :=
  {| Guard := None; IsFinal := true; OnFail := None; OnSuccess := None; To := 0 |}.

(** A guard that always refuses and no failure handler. *)
Definition refused : Transition unit :=
  {| Guard := Some (fun _ _ w => (false, w)); IsFinal := false;
     OnFail := None; OnSuccess := None; To := 2 |}.

(** [cism.StateTransitionTable{state: {event: tran}}] with [state = event = 1]. *)
Definition table (tran : option (Transition unit)) : StateTransitionTable unit :=
  {[ 1%Z := {[ 1%Z := tran ]} ]}.

(** [cism.StateTransitionTable{state: nil}] with [state = 1]. *)
Definition bare : StateTransitionTable unit := {[ 1%Z := ∅ ]}.

Definition host : Host unit := {| world := tt; calls := [] |}.

(** The machine of a test after [machine.Start(state)]. *)
Definition started_on (tran : option (Transition unit)) : Machine unit :=
  machine_after (Start 1) (New (table tran)) host.

End Fixture.

(** * Properties *)

Section Properties.

Context {W : Type}.

Implicit Types (m : Machine W) (h : Host W) (tran : Transition W).
Implicit Types (s : State) (e : Event).

(** What [tran.Guard == nil || tran.Guard(currstate, e)] evaluates to, and
    the host variables it leaves behind. *)
Definition guard_result tran s e (w : W) : bool * W :=
  match Guard tran with
  | None => (true, w)
  | Some g => g s e w
  end.

(** The trace entry of a hook that is only called when it is set. *)
Definition hook_call {F : Type} (k : Hook) (f : option F) s e : list Call :=
  match f with
  | Some _ => [mkCall k s e]
  | None => []
  end.

(** How often a hook that is only called when set is called: once or never. *)
Definition times {F : Type} (f : option F) : nat :=
  match f with
  | Some _ => 1
  | None => 0
  end.

(** The host variables after an optional handler ran. *)
Definition after_hook (f : option (State -> Event -> W -> W)) s e (w : W) : W :=
  match f with
  | Some f => f s e w
  | None => w
  end.

(** Whether the table has the key [e] under the key [s], whatever pointer
    is stored there. *)
Definition has_event (stt : StateTransitionTable W) s e : bool :=
  match stt !! s with
  | Some events =>
      match events !! e with
      | Some _ => true
      | None => false
      end
  | None => false
  end.

(** The machine after a transition whose guard let it through. *)
Definition moved tran e m : Machine W :=
  let m1 := set_curr (To tran)
              (set_hist (hist m ++ [mkHistoryRecord (curr m) e]) m) in
  if IsFinal tran then set_done true (set_endevt (Some e) m1) else m1.

(** Whether the records [l] are a walk through the table from [s] to [t]:
    each record holds the state the walk is in and an event that has a
    transition there, and the walk goes on from that transition's [To]. *)
Fixpoint follows (stt : StateTransitionTable W) s (l : list HistoryRecord) (t : State)
  : bool :=
  match l with
  | [] => bool_decide (s = t)
  | r :: l' =>
      bool_decide (rec_State r = s) &&
      match GetTransition stt s (rec_Event r) with
      | Some tran => follows stt (To tran) l' t
      | None => false
      end
  end.

(** The machines a program can get to: a new machine over the table, driven
    by any sequence of method calls; the host may be in any state at each
    call, since the program can change its variables between calls. *)
Inductive reachable (stt : StateTransitionTable W) : Machine W -> Prop :=
| reachable_New : reachable stt (New stt)
| reachable_op m op h :
    reachable stt m -> reachable stt (machine_after (run_op op) m h).

(** What every reachable machine satisfies. *)
Definition consistent (stt : StateTransitionTable W) m : Prop :=
  States m = stt /\
  endevt m = (if done m then rec_Event <$> last (hist m) else None) /\
  (started m = false -> hist m = [] /\ curr m = initial m) /\
  (started m = true -> is_Some (stt !! initial m)) /\
  follows stt (initial m) (hist m) (curr m) = true.

Ltac unmonad :=
  unfold Start, Send, Reset, Stop, transition in *;
  unfold stop, bind, ret, self, assign, call_guard, call_hook_fn in *.

(** *** Helper lemmas *)

Lemma last_index_snoc {A} (l : list A) (x : A) :
  (l ++ [x]) !! (length (l ++ [x]) - 1)%nat = Some x.
Proof.
  rewrite length_app. simpl.
  replace (length l + 1 - 1)%nat with (length l + 0)%nat by lia.
  rewrite lookup_app_r by lia.
  replace (length l + 0 - length l)%nat with 0%nat by lia.
  reflexivity.
Qed.

Lemma snoc_nonempty {A} (l : list A) (x : A) :
  (0 <? length (l ++ [x]))%nat = true.
Proof. apply Nat.ltb_lt. rewrite length_app. simpl. lia. Qed.

Lemma count_calls_app k (t1 t2 : list Call) :
  count_calls k (t1 ++ t2) = (count_calls k t1 + count_calls k t2)%nat.
Proof. unfold count_calls. rewrite filter_app, length_app. reflexivity. Qed.

Lemma size_zero_empty (stt : StateTransitionTable W) :
  (size stt =? 0)%nat = true <-> stt = ∅.
Proof. rewrite Nat.eqb_eq. apply map_size_empty_iff. Qed.

Lemma key_nonempty (stt : StateTransitionTable W) s :
  is_Some (stt !! s) -> (size stt =? 0)%nat = false.
Proof.
  intros [x Hx]. apply Nat.eqb_neq. intros Hz.
  apply map_size_empty_iff in Hz. subst stt.
  rewrite lookup_empty in Hx. discriminate.
Qed.

Lemma events_fold {V} (l : list (Z * V)) (acc : list Event) :
  fold_left (fun evs p => evs ++ [fst p]) l acc = acc ++ l.*1.
Proof.
  revert acc. induction l as [|p l IH]; intros acc; simpl.
  - rewrite app_nil_r. reflexivity.
  - rewrite IH, <- app_assoc. reflexivity.
Qed.

(** [stop] in closed form. *)
Lemma stop_eq m h :
  stop m h =
    (tt,
     set_done true
       (match last (hist m) with
        | Some r => set_endevt (Some (rec_Event r)) m
        | None => m
        end),
     h).
Proof.
  unmonad. destruct (hist m) as [|r l] eqn:Hh using rev_ind.
  - simpl. reflexivity.
  - rewrite snoc_nonempty, last_index_snoc, last_snoc. reflexivity.
Qed.

(** [Send] on a running machine with a matched transition. *)
Lemma Send_running m h e tran :
  started m = true -> done m = false ->
  GetTransition (States m) (curr m) e = Some tran ->
  Send e m h = (let '(_, m', h') := transition tran e m h in (None, m', h')).
Proof.
  intros Hs Hd Ht. unfold Send, bind, self, ret.
  rewrite Hs, Hd, Ht. simpl. reflexivity.
Qed.

(** What applying a transition does to the two lifecycle flags. *)
Lemma transition_flags tran e m h :
  let '(_, m', _) := transition tran e m h in
  started m' = started m /\
  done m' =
    (if fst (guard_result tran (curr m) e (world h))
     then (if IsFinal tran then true else done m)
     else done m).
Proof.
  unfold guard_result. unmonad.
  destruct (Guard tran) as [g|]; simpl;
    [destruct (g (curr m) e (world h)) as [[|] w]; simpl|];
    destruct (OnSuccess tran), (OnFail tran), (IsFinal tran); simpl;
    rewrite ?snoc_nonempty, ?last_index_snoc; simpl; split; reflexivity.
Qed.

(** *** Sending an event *)

(** C1 (amended): on a running machine, when the table has a transition for
    (current state, e) whose guard is absent or returns true, [Send e]
    returns no error, appends exactly the record (state being left, e) to
    the history, moves to the transition's [To] state, and calls the
    success handler exactly once with (state being left, e) when the
    transition has one; without a success handler no handler is called. *)
Theorem send_guard_pass m h e tran :
  started m = true -> done m = false ->
  GetTransition (States m) (curr m) e = Some tran ->
  fst (guard_result tran (curr m) e (world h)) = true ->
  let '(r, m', h') := Send e m h in
  r = None /\
  hist m' = hist m ++ [mkHistoryRecord (curr m) e] /\
  curr m' = To tran /\
  calls h' = calls h ++ hook_call HGuard (Guard tran) (curr m) e
                     ++ hook_call HOnSuccess (OnSuccess tran) (curr m) e /\
  count_calls HOnSuccess (calls h') =
    (count_calls HOnSuccess (calls h) + times (OnSuccess tran))%nat /\
  count_calls HOnFail (calls h') = count_calls HOnFail (calls h) /\
  world h' = after_hook (OnSuccess tran) (curr m) e
               (snd (guard_result tran (curr m) e (world h))).
Proof.
  intros Hs Hd Ht Hg. rewrite (Send_running m h e tran Hs Hd Ht).
  unfold guard_result in *. unmonad.
  destruct (Guard tran) as [g|]; simpl in *.
  - destruct (g (curr m) e (world h)) as [b w]. simpl in Hg. subst b.
    destruct (OnSuccess tran) as [f|], (IsFinal tran); simpl;
      rewrite ?snoc_nonempty, ?last_index_snoc; simpl;
      rewrite ?count_calls_app, <- ?app_assoc; simpl;
      repeat split; try reflexivity; unfold count_calls; simpl; lia.
  - destruct (OnSuccess tran) as [f|], (IsFinal tran); simpl;
      rewrite ?snoc_nonempty, ?last_index_snoc; simpl;
      rewrite ?count_calls_app, ?app_nil_r; simpl;
      repeat split; try reflexivity; unfold count_calls; simpl; lia.
Qed.

(** C5 (amended): on a running machine, when the guard of the matched
    transition returns false, [Send e] returns no error, leaves the whole
    machine (current state and history included) as it was, and calls the
    failure handler exactly once with (current state, e) when the
    transition has one; without a failure handler no handler is called. *)
Theorem send_guard_fail m h e tran :
  started m = true -> done m = false ->
  GetTransition (States m) (curr m) e = Some tran ->
  fst (guard_result tran (curr m) e (world h)) = false ->
  let '(r, m', h') := Send e m h in
  r = None /\
  m' = m /\
  curr m' = curr m /\ hist m' = hist m /\
  calls h' = calls h ++ [mkCall HGuard (curr m) e]
                     ++ hook_call HOnFail (OnFail tran) (curr m) e /\
  count_calls HOnFail (calls h') =
    (count_calls HOnFail (calls h) + times (OnFail tran))%nat /\
  count_calls HOnSuccess (calls h') = count_calls HOnSuccess (calls h) /\
  world h' = after_hook (OnFail tran) (curr m) e
               (snd (guard_result tran (curr m) e (world h))).
Proof.
  intros Hs Hd Ht Hg. rewrite (Send_running m h e tran Hs Hd Ht).
  unfold guard_result in *. unmonad.
  destruct (Guard tran) as [g|]; simpl in *; [|discriminate].
  destruct (g (curr m) e (world h)) as [b w]. simpl in Hg. subst b.
  destruct (OnFail tran) as [f|]; simpl;
    rewrite ?count_calls_app, <- ?app_assoc; simpl;
    repeat split; try reflexivity; unfold count_calls; simpl; lia.
Qed.

(** C6: when the matched transition is final and its guard is absent or
    returns true, the machine is stopped after [Send e], and every further
    [Send] fails with [ErrMachineStopped] whose final event is [e], leaving
    the machine as it is. *)
Theorem send_final_stops m h e tran :
  started m = true -> done m = false ->
  GetTransition (States m) (curr m) e = Some tran ->
  IsFinal tran = true ->
  fst (guard_result tran (curr m) e (world h)) = true ->
  let '(r, m', h') := Send e m h in
  r = None /\
  done m' = true /\ lifecycle m' = stopped /\
  forall e' h'',
    Send e' m' h'' =
      (Some (ErrMachineStopped (Some e)
               "machine is done and not accepting transitions"), m', h'').
Proof.
  intros Hs Hd Ht Hf Hg. rewrite (Send_running m h e tran Hs Hd Ht).
  unfold guard_result in *. unfold lifecycle. unmonad. rewrite Hf.
  destruct (Guard tran) as [g|]; simpl in *.
  - destruct (g (curr m) e (world h)) as [b w]. simpl in Hg. subst b.
    destruct (OnSuccess tran) as [f|]; simpl;
      rewrite ?snoc_nonempty, ?last_index_snoc; simpl; rewrite Hs; simpl;
      repeat split; reflexivity.
  - destruct (OnSuccess tran) as [f|]; simpl;
      rewrite ?snoc_nonempty, ?last_index_snoc; simpl; rewrite Hs; simpl;
      repeat split; reflexivity.
Qed.

(** *** Failing operations *)

(** C3: an operation that returns an error leaves every field of the
    machine (current state, initial state, started and stopped flags,
    terminal event, history log, table) as it was; no hook ran either. *)
Theorem failed_op_leaves_machine_unchanged op m h err m' h' :
  run_op op m h = (Some err, m', h') ->
  m' = m /\ h' = h.
Proof.
  destruct op as [s|e| |]; simpl; unmonad.
  - destruct (size (States m) =? 0)%nat; [intros [= <- <- <-]; auto|].
    destruct (States m !! s); [|intros [= <- <- <-]; auto].
    destruct (done m); [intros [= <- <- <-]; auto|].
    destruct (started m); [intros [= <- <- <-]; auto|].
    discriminate.
  - destruct (started m); simpl; [|intros [= <- <- <-]; auto].
    destruct (done m); simpl; [intros [= <- <- <-]; auto|].
    destruct (GetTransition (States m) (curr m) e) as [tran|];
      [|intros [= <- <- <-]; auto].
    intros Hrun. exfalso. revert Hrun.
    repeat match goal with
           | |- context [let '(_, _) := ?c in _] => destruct c
           | |- context [match ?c with _ => _ end] => destruct c
           end; discriminate.
  - repeat match goal with
           | |- context [match ?c with _ => _ end] => destruct c
           end; discriminate.
  - destruct (done m); simpl; [discriminate|intros [= <- <- <-]; auto].
Qed.

(** *** Starting *)

(** [Start] case by case, on the components of a run. *)
Lemma start_run s m h :
  let '(r, m', h') := Start s m h in
  h' = h /\
  ((exists msg, r = Some (ErrMissingStates msg)) <-> States m = ∅) /\
  (States m = ∅ -> r = Some (ErrMissingStates "no states set") /\ m' = m) /\
  (States m <> ∅ -> States m !! s = None ->
     r = Some (ErrStateNotDefined s "start state not defined in states") /\
     m' = m) /\
  (States m <> ∅ -> is_Some (States m !! s) -> done m = true ->
     r = Some (ErrMachineStopped (endevt m)
                 "machine is done and cannot be started") /\
     m' = m) /\
  (States m <> ∅ -> is_Some (States m !! s) -> done m = false ->
     started m = true ->
     r = Some (ErrMachineStarted "machine has already started") /\ m' = m) /\
  (States m <> ∅ -> is_Some (States m !! s) -> done m = false ->
     started m = false ->
     r = None /\
     m' = {| States := States m; curr := s; done := false;
             endevt := endevt m; hist := hist m; initial := s;
             started := true |} /\
     lifecycle m' = running).
Proof.
  unfold lifecycle. unmonad.
  destruct (size (States m) =? 0)%nat eqn:Hsz.
  - apply size_zero_empty in Hsz.
    repeat split; eauto; intros; congruence.
  - assert (Hne : States m <> ∅).
    { intros Hem. apply size_zero_empty in Hem. congruence. }
    destruct (States m !! s) as [evs|] eqn:Hk.
    + destruct (done m) eqn:Hd; [|destruct (started m) eqn:Hst]; simpl;
        repeat split; intros;
        repeat match goal with
               | H : ex _ |- _ => destruct H
               | H : is_Some None |- _ => destruct H
               end;
        try congruence; try reflexivity.
    + repeat split; intros;
        repeat match goal with
               | H : ex _ |- _ => destruct H
               | H : is_Some None |- _ => destruct H
               end;
        try congruence; try reflexivity.
Qed.

(** C7: [Start s] fails with [ErrMissingStates] exactly when the table is
    empty; otherwise with [ErrStateNotDefined] when [s] is not a key of the
    table; otherwise with [ErrMachineStopped] when the machine is stopped;
    otherwise with [ErrMachineStarted] when it is running; otherwise it
    succeeds and records [s] as current and initial state and marks the
    machine running.  No hook is called in any case, and a failing start
    leaves the machine as it was. *)
Theorem start_spec s m h :
  let r := result_of (Start s) m h in
  let m' := machine_after (Start s) m h in
  let h' := host_after (Start s) m h in
  h' = h /\
  ((exists msg, r = Some (ErrMissingStates msg)) <-> States m = ∅) /\
  (States m = ∅ -> r = Some (ErrMissingStates "no states set") /\ m' = m) /\
  (States m <> ∅ -> States m !! s = None ->
     r = Some (ErrStateNotDefined s "start state not defined in states") /\
     m' = m) /\
  (States m <> ∅ -> is_Some (States m !! s) -> done m = true ->
     r = Some (ErrMachineStopped (endevt m)
                 "machine is done and cannot be started") /\
     m' = m) /\
  (States m <> ∅ -> is_Some (States m !! s) -> done m = false ->
     started m = true ->
     r = Some (ErrMachineStarted "machine has already started") /\ m' = m) /\
  (States m <> ∅ -> is_Some (States m !! s) -> done m = false ->
     started m = false ->
     r = None /\
     m' = {| States := States m; curr := s; done := false;
             endevt := endevt m; hist := hist m; initial := s;
             started := true |} /\
     lifecycle m' = running).
Proof.
  pose proof (start_run s m h) as Hrun.
  unfold result_of, machine_after, host_after.
  destruct (Start s m h) as [[r m'] h']. exact Hrun.
Qed.

(** *** Stopping and resetting *)

(** How the stopped lifecycle state is entered, on the components of a run. *)
Lemma stopped_entered_run op m h :
  let '(r, m', h') := run_op op m h in
  (op = OpStop -> lifecycle m' = stopped) /\
  (lifecycle m <> stopped -> lifecycle m' = stopped ->
     op = OpStop \/
     exists e tran,
       op = OpSend e /\ lifecycle m = running /\ r = None /\
       GetTransition (States m) (curr m) e = Some tran /\
       IsFinal tran = true /\
       fst (guard_result tran (curr m) e (world h)) = true).
Proof.
  destruct op as [s|e| |]; simpl.
  - pose proof (start_run s m h) as Hspec.
    destruct (Start s m h) as [[r m'] h'].
    destruct Hspec as (_ & _ & H0 & H1 & H2 & H3 & H4).
    split; [discriminate|]. intros Hm Hm'. exfalso.
    destruct (decide (States m = ∅)) as [He|He];
      [destruct (H0 He) as [_ ->]; auto|].
    destruct (States m !! s) as [evs|] eqn:Hk;
      [|destruct (H1 He eq_refl) as [_ ->]; auto].
    destruct (done m) eqn:Hd;
      [destruct (H2 He (mk_is_Some _ _ eq_refl) eq_refl) as [_ ->]; auto|].
    destruct (started m) eqn:Hst;
      [destruct (H3 He (mk_is_Some _ _ eq_refl) eq_refl eq_refl) as [_ ->]; auto|].
    destruct (H4 He (mk_is_Some _ _ eq_refl) eq_refl eq_refl) as (_ & _ & Hl).
    congruence.
  - unfold lifecycle. unfold Send, bind, self, ret.
    destruct (started m) eqn:Hst; simpl.
    + destruct (done m) eqn:Hd; simpl; [split; [discriminate|congruence]|].
      destruct (GetTransition (States m) (curr m) e) as [tran|] eqn:Ht;
        [|rewrite Hd, Hst; split; discriminate].
      pose proof (transition_flags tran e m h) as Hfl.
      destruct (transition tran e m h) as [[u m'] h'].
      destruct Hfl as [Hst' Hd']. rewrite Hst', Hd', Hst, Hd.
      split; [discriminate|]. intros _ Hstop.
      destruct (fst (guard_result tran (curr m) e (world h))) eqn:Hg;
        [|discriminate].
      destruct (IsFinal tran) eqn:Hf; [|discriminate].
      right. exists e, tran. repeat split; auto.
    + destruct (done m) eqn:Hd; simpl; rewrite ?Hst; split; try discriminate;
        congruence.
  - unfold Stop, bind, ret. rewrite stop_eq. unfold lifecycle. simpl.
    split; auto.
  - unfold lifecycle. unmonad.
    destruct (done m) eqn:Hd; simpl; [|rewrite Hd]; split;
      try discriminate; congruence.
Qed.

(** C4 (amended): an explicit [Stop] puts the machine in the stopped
    lifecycle state from any state, the unstarted one included; apart from
    an explicit [Stop], the stopped state is entered only by a [Send] on a
    running machine that applies a final transition whose guard is absent
    or returns true.  [Start] and [Reset] never enter it. *)
Theorem stopped_entered_by_stop_or_final_send op m h :
  (op = OpStop -> lifecycle (machine_after (run_op op) m h) = stopped) /\
  (lifecycle m <> stopped ->
   lifecycle (machine_after (run_op op) m h) = stopped ->
     op = OpStop \/
     exists e tran,
       op = OpSend e /\ lifecycle m = running /\
       result_of (run_op op) m h = None /\
       GetTransition (States m) (curr m) e = Some tran /\
       IsFinal tran = true /\
       fst (guard_result tran (curr m) e (world h)) = true).
Proof.
  pose proof (stopped_entered_run op m h) as Hrun.
  unfold machine_after, result_of.
  destruct (run_op op m h) as [[r m'] h']. exact Hrun.
Qed.

(** C8: for a key [s] of the table and a machine that is neither started
    nor stopped (a new one in particular), [Start s], [Stop], [Reset] all
    succeed; afterwards [Current] is [s], [History] is empty, and a
    further [Start s] succeeds. *)
Theorem start_stop_reset_round_trip s m h :
  is_Some (States m !! s) -> started m = false -> done m = false ->
  let '(rs, m', h') := run_ops [OpStart s; OpStop; OpReset] m h in
  rs = [None; None; None] /\
  Current m' = s /\ History m' = [] /\ h' = h /\
  lifecycle m' = unstarted /\
  exists m'', Start s m' h' = (None, m'', h') /\ lifecycle m'' = running.
Proof.
  intros Hk Hst Hd. pose proof (key_nonempty _ _ Hk) as Hsz.
  destruct Hk as [evs Hk].
  unfold run_ops, run_op, Stop, bind at 1 2 3 4 5 6 7, ret.
  unfold Start at 1, bind, self, ret, assign. rewrite Hsz, Hk, Hd, Hst.
  rewrite stop_eq. unfold Reset, bind, self, ret, assign.
  unfold Current, History, lifecycle. simpl.
  destruct (last (hist m)); simpl;
    (repeat split; try reflexivity;
     eexists; unfold Start, bind, self, ret, assign; simpl;
     rewrite Hsz, Hk; simpl; split; reflexivity).
Qed.

(** Two [Stop]s against one, on the components of the runs. *)
Lemma stop_twice_run m h :
  let '(_, m1, h1) := Stop m h in
  let '(_, m2, h2) := Stop m1 h1 in
  m2 = m1 /\ h2 = h1 /\ h1 = h /\
  forall s, is_Some (States m !! s) ->
    Start s m1 h1 =
      (Some (ErrMachineStopped (endevt m1)
               "machine is done and cannot be started"), m1, h1) /\
    Start s m2 h2 =
      (Some (ErrMachineStopped (endevt m1)
               "machine is done and cannot be started"), m2, h2).
Proof.
  unfold Stop. rewrite !stop_eq.
  destruct (last (hist m)) as [r|] eqn:Hl; simpl; rewrite Hl;
    (split; [reflexivity|]; split; [reflexivity|]; split; [reflexivity|];
     intros s Hkey; pose proof (key_nonempty _ _ Hkey) as Hsz;
     destruct Hkey as [evs Hk];
     unfold Start, bind, self, ret; simpl; rewrite Hsz, Hk;
     split; reflexivity).
Qed.

(** C9 (amended): calling [Stop] twice in succession leaves exactly the
    machine (terminal event included) and host that one call leaves, and
    after either, [Start s] with [s] a key of the table fails with
    [ErrMachineStopped] carrying that terminal event. *)
Theorem stop_idempotent m h :
  let m1 := machine_after Stop m h in
  let h1 := host_after Stop m h in
  let m2 := machine_after Stop m1 h1 in
  let h2 := host_after Stop m1 h1 in
  m2 = m1 /\ h2 = h1 /\ h1 = h /\
  forall s, is_Some (States m !! s) ->
    Start s m1 h1 =
      (Some (ErrMachineStopped (endevt m1)
               "machine is done and cannot be started"), m1, h1) /\
    Start s m2 h2 =
      (Some (ErrMachineStopped (endevt m1)
               "machine is done and cannot be started"), m2, h2).
Proof.
  pose proof (stop_twice_run m h) as Hrun.
  unfold machine_after, host_after.
  destruct (Stop m h) as [[u1 m1] h1]. simpl.
  destruct (Stop m1 h1) as [[u2 m2] h2]. exact Hrun.
Qed.

(** *** Nil transitions in the table *)

(** C10: when the inner map of state [s] binds event [e] to a nil
    transition, [GetTransition s e] finds nothing, [Send e] on a running
    machine whose current state is [s] fails with [ErrMissingTransition]
    for [(s, e)] and leaves the machine as it was, and [GetEventsForState s]
    nevertheless lists [e]. *)
Theorem nil_transition_listed_but_missing m h s e events :
  States m !! s = Some events -> events !! e = Some None ->
  started m = true -> done m = false -> curr m = s ->
  GetTransition (States m) s e = None /\
  Send e m h =
    (Some (ErrMissingTransition s e
             "no transition found for event in current state"), m, h) /\
  e ∈ GetEventsForState (States m) s.
Proof.
  intros Hs He Hst Hd Hc.
  assert (Hg : GetTransition (States m) s e = None).
  { unfold GetTransition. rewrite Hs, He. reflexivity. }
  split; [exact Hg|]. split.
  - unfold Send, bind, self, ret. rewrite Hst, Hd, Hc, Hg. reflexivity.
  - unfold GetEventsForState. rewrite Hs, events_fold. simpl.
    apply list_elem_of_fmap. exists (e, None). split; [reflexivity|].
    apply elem_of_map_to_list. exact He.
Qed.

(** *** The queries of the table *)

Lemma inner_fold (l : list (Z * option (Transition W))) (acc : list State) s e :
  NoDup l.*1 ->
  fold_left (fun states q => if decide (fst q = e) then states ++ [s] else states)
    l acc
  = acc ++ (if decide (e ∈ l.*1) then [s] else []).
Proof.
  revert acc. induction l as [|q l IH]; intros acc Hnd.
  - destruct (decide (e ∈ [].*1)) as [Hin|_]; [inversion Hin|].
    simpl. rewrite app_nil_r. reflexivity.
  - rewrite fmap_cons in *. apply NoDup_cons in Hnd as [Hq Hnd].
    cbn [fold_left]. rewrite (IH _ Hnd).
    destruct (decide (q.1 = e)) as [<-|Hne].
    + destruct (decide (q.1 ∈ l.*1)) as [Hin|_]; [contradiction|].
      destruct (decide (q.1 ∈ q.1 :: l.*1)) as [_|Hni];
        [|exfalso; apply Hni, list_elem_of_here].
      rewrite app_nil_r. reflexivity.
    + destruct (decide (e ∈ l.*1)) as [Hin|Hni];
        destruct (decide (e ∈ q.1 :: l.*1)) as [Hin'|Hni']; try reflexivity.
      * exfalso. apply Hni', list_elem_of_further, Hin.
      * exfalso. apply elem_of_cons in Hin' as [Heq|Hin']; [congruence|contradiction].
Qed.

Lemma key_listed {V} (mp : gmap Z V) (k : Z) :
  k ∈ (map_to_list mp).*1 <-> is_Some (mp !! k).
Proof.
  split.
  - intros [[k' v] [-> Hin]]%list_elem_of_fmap.
    apply elem_of_map_to_list in Hin. eauto.
  - intros [v Hv]. apply list_elem_of_fmap. exists (k, v). split; [reflexivity|].
    apply elem_of_map_to_list. exact Hv.
Qed.

Lemma states_fold (L : list (Z * gmap Z (option (Transition W)))) acc e :
  fold_left
    (fun states p =>
       fold_left
         (fun states q =>
            if decide (fst q = e) then states ++ [fst p] else states)
         (map_to_list (snd p)) states)
    L acc
  = acc ++ (filter (fun p => is_Some (snd p !! e)) L).*1.
Proof.
  revert acc. induction L as [|p L IH]; intros acc.
  - simpl. rewrite app_nil_r. reflexivity.
  - cbn [fold_left]. rewrite inner_fold by apply NoDup_fst_map_to_list.
    rewrite IH, filter_cons.
    destruct (decide (e ∈ (map_to_list p.2).*1)) as [Hin|Hni];
      destruct (decide (is_Some (p.2 !! e))) as [Hs|Hn].
    + rewrite fmap_cons, <- app_assoc. reflexivity.
    + exfalso. apply Hn, key_listed, Hin.
    + exfalso. apply Hni, key_listed, Hs.
    + rewrite app_nil_r. reflexivity.
Qed.

Lemma has_event_iff (stt : StateTransitionTable W) s e :
  has_event stt s e = true <->
  exists events, stt !! s = Some events /\ is_Some (events !! e).
Proof.
  unfold has_event. split.
  - destruct (stt !! s) as [events|]; [|discriminate].
    destruct (events !! e) eqn:He; [|discriminate].
    intros _. exists events. rewrite He. eauto.
  - intros (events & -> & [v ->]). reflexivity.
Qed.

Lemma events_elem (stt : StateTransitionTable W) s e :
  e ∈ GetEventsForState stt s <-> has_event stt s e = true.
Proof.
  rewrite has_event_iff. unfold GetEventsForState.
  destruct (stt !! s) as [events|].
  - rewrite events_fold. simpl. rewrite key_listed.
    split; [eauto|]. intros (evs & [= <-] & Hs). exact Hs.
  - split; [intros Hin; inversion Hin|]. intros (evs & Hn & _). discriminate.
Qed.

Lemma states_elem (stt : StateTransitionTable W) s e :
  s ∈ GetStatesForEvent stt e <-> has_event stt s e = true.
Proof.
  rewrite has_event_iff. unfold GetStatesForEvent.
  destruct (size stt =? 0)%nat eqn:Hsz.
  - apply size_zero_empty in Hsz. subst stt. split.
    + intros Hin. inversion Hin.
    + intros (evs & Hn & _). rewrite lookup_empty in Hn. discriminate.
  - rewrite states_fold. simpl. split.
    + intros [[s' evs] [-> Hin]]%list_elem_of_fmap.
      apply list_elem_of_filter in Hin as [Hs Hin].
      apply elem_of_map_to_list in Hin. simpl in *. eauto.
    + intros (evs & Hk & Hs). apply list_elem_of_fmap.
      exists (s, evs). split; [reflexivity|].
      apply list_elem_of_filter. split; [exact Hs|].
      apply elem_of_map_to_list. exact Hk.
Qed.

(** X1: [GetEventsForState s] lists exactly the event keys stored under
    [s], each once, whatever transition pointer they are bound to; for a
    state that is not in the table the list is empty. *)
Theorem GetEventsForState_spec (stt : StateTransitionTable W) s :
  NoDup (GetEventsForState stt s) /\
  (forall e, e ∈ GetEventsForState stt s <-> has_event stt s e = true) /\
  length (GetEventsForState stt s) =
    match stt !! s with
    | Some events => size events
    | None => 0%nat
    end.
Proof.
  split; [|split].
  - unfold GetEventsForState. destruct (stt !! s) as [events|].
    + rewrite events_fold. apply NoDup_fst_map_to_list.
    + apply NoDup_nil_2.
  - intros e. apply events_elem.
  - unfold GetEventsForState. destruct (stt !! s) as [events|]; [|reflexivity].
    rewrite events_fold. simpl. rewrite length_fmap. apply length_map_to_list.
Qed.

(** X2: [GetStatesForEvent e] lists exactly the states of the table that
    have the key [e], each once. *)
Theorem GetStatesForEvent_spec (stt : StateTransitionTable W) e :
  NoDup (GetStatesForEvent stt e) /\
  (forall s, s ∈ GetStatesForEvent stt e <-> has_event stt s e = true).
Proof.
  split.
  - unfold GetStatesForEvent. destruct (size stt =? 0)%nat; [apply NoDup_nil_2|].
    rewrite states_fold. simpl.
    eapply sublist_NoDup; [apply (NoDup_fst_map_to_list stt)|].
    apply fmap_sublist, sublist_filter.
  - intros s. apply states_elem.
Qed.

(** X3: the two queries agree: [s] is among the states of [e] exactly when
    [e] is among the events of [s]. *)
Theorem queries_agree (stt : StateTransitionTable W) s e :
  s ∈ GetStatesForEvent stt e <-> e ∈ GetEventsForState stt s.
Proof. rewrite states_elem, events_elem. reflexivity. Qed.

(** X4: a transition that [GetTransition] finds is listed by both queries,
    and an event that [GetEventsForState] does not list has no transition. *)
Theorem GetTransition_listed (stt : StateTransitionTable W) s e :
  (forall tran, GetTransition stt s e = Some tran ->
     e ∈ GetEventsForState stt s /\ s ∈ GetStatesForEvent stt e) /\
  (e ∉ GetEventsForState stt s -> GetTransition stt s e = None).
Proof.
  assert (Hfound : forall tran, GetTransition stt s e = Some tran ->
                     has_event stt s e = true).
  { intros tran. unfold GetTransition, has_event.
    destruct (stt !! s) as [events|]; [|discriminate].
    destruct (events !! e); [reflexivity|discriminate]. }
  split.
  - intros tran Ht. rewrite states_elem, events_elem. eauto.
  - intros Hni. destruct (GetTransition stt s e) as [tran|] eqn:Ht; [|reflexivity].
    exfalso. apply Hni, events_elem. eauto.
Qed.

(** *** Closed forms of the methods *)

Lemma Send_eq e m h :
  Send e m h =
    if negb (started m) then
      (Some (ErrMachineNotStarted "machine has not started"), m, h)
    else if done m then
      (Some (ErrMachineStopped (endevt m)
               "machine is done and not accepting transitions"), m, h)
    else
      match GetTransition (States m) (curr m) e with
      | Some tran =>
          (None, machine_after (transition tran e) m h,
           host_after (transition tran e) m h)
      | None =>
          (Some (ErrMissingTransition (curr m) e
                   "no transition found for event in current state"), m, h)
      end.
Proof.
  unfold Send, bind, self, ret, machine_after, host_after.
  destruct (started m), (done m); simpl; try reflexivity.
  destruct (GetTransition (States m) (curr m) e) as [tran|]; [|reflexivity].
  destruct (transition tran e m h) as [[u m'] h']. reflexivity.
Qed.

Lemma Reset_eq m h :
  Reset m h =
    if done m then
      (None,
       {| States := States m; curr := initial m; done := false;
          endevt := None; hist := []; initial := initial m;
          started := false |}, h)
    else (Some (ErrMachineNotStopped "machine has not stopped"), m, h).
Proof. unmonad. destruct (done m); reflexivity. Qed.

Lemma Start_eq s m h :
  Start s m h =
    if (size (States m) =? 0)%nat then
      (Some (ErrMissingStates "no states set"), m, h)
    else
      match States m !! s with
      | None =>
          (Some (ErrStateNotDefined s "start state not defined in states"), m, h)
      | Some _ =>
          if done m then
            (Some (ErrMachineStopped (endevt m)
                     "machine is done and cannot be started"), m, h)
          else if started m then
            (Some (ErrMachineStarted "machine has already started"), m, h)
          else
            (None,
             {| States := States m; curr := s; done := false;
                endevt := endevt m; hist := hist m; initial := s;
                started := true |}, h)
      end.
Proof.
  unmonad. destruct (size (States m) =? 0)%nat; [reflexivity|].
  destruct (States m !! s); [|reflexivity].
  destruct (done m); [reflexivity|]. destruct (started m); reflexivity.
Qed.

Lemma transition_machine tran e m h :
  machine_after (transition tran e) m h =
    if fst (guard_result tran (curr m) e (world h)) then moved tran e m else m.
Proof.
  unfold machine_after, guard_result, moved. unmonad.
  destruct (Guard tran) as [g|]; simpl;
    [destruct (g (curr m) e (world h)) as [[|] w]; simpl|];
    destruct (OnSuccess tran), (OnFail tran), (IsFinal tran); simpl;
    rewrite ?snoc_nonempty, ?last_index_snoc; reflexivity.
Qed.

Lemma transition_calls tran e m h :
  calls (host_after (transition tran e) m h) =
    calls h ++ hook_call HGuard (Guard tran) (curr m) e
            ++ (if fst (guard_result tran (curr m) e (world h))
                then hook_call HOnSuccess (OnSuccess tran) (curr m) e
                else hook_call HOnFail (OnFail tran) (curr m) e).
Proof.
  unfold host_after, guard_result. unmonad.
  destruct (Guard tran) as [g|]; simpl;
    [destruct (g (curr m) e (world h)) as [[|] w]; simpl|];
    destruct (OnSuccess tran), (OnFail tran), (IsFinal tran); simpl;
    rewrite ?snoc_nonempty, ?last_index_snoc; simpl;
    rewrite <- ?app_assoc, ?app_nil_r; reflexivity.
Qed.

Lemma run_ops_cons op ops m h :
  machine_after (run_ops (op :: ops)) m h =
    machine_after (run_ops ops)
      (machine_after (run_op op) m h) (host_after (run_op op) m h) /\
  host_after (run_ops (op :: ops)) m h =
    host_after (run_ops ops)
      (machine_after (run_op op) m h) (host_after (run_op op) m h) /\
  result_of (run_ops (op :: ops)) m h =
    result_of (run_op op) m h
    :: result_of (run_ops ops)
         (machine_after (run_op op) m h) (host_after (run_op op) m h).
Proof.
  unfold machine_after, host_after, result_of. cbn [run_ops].
  unfold bind, ret.
  destruct (run_op op m h) as [[r m1] h1]. simpl.
  destruct (run_ops ops m1 h1) as [[rs m2] h2]. auto.
Qed.

(** The machine after one method call, case by case. *)
Lemma run_op_machine op m h :
  machine_after (run_op op) m h =
    match op with
    | OpStart s =>
        if (size (States m) =? 0)%nat then m
        else match States m !! s with
             | None => m
             | Some _ =>
                 if done m then m else if started m then m
                 else {| States := States m; curr := s; done := false;
                         endevt := endevt m; hist := hist m; initial := s;
                         started := true |}
             end
    | OpSend e =>
        if negb (started m) then m else if done m then m
        else match GetTransition (States m) (curr m) e with
             | Some tran =>
                 if fst (guard_result tran (curr m) e (world h))
                 then moved tran e m else m
             | None => m
             end
    | OpStop =>
        set_done true
          match last (hist m) with
          | Some r => set_endevt (Some (rec_Event r)) m
          | None => m
          end
    | OpReset =>
        if done m then
          {| States := States m; curr := initial m; done := false;
             endevt := None; hist := []; initial := initial m;
             started := false |}
        else m
    end.
Proof.
  destruct op as [s|e| |]; simpl.
  - unfold machine_after. rewrite Start_eq.
    destruct (size (States m) =? 0)%nat; [reflexivity|].
    destruct (States m !! s); [|reflexivity].
    destruct (done m); [reflexivity|]. destruct (started m); reflexivity.
  - unfold machine_after at 1. rewrite Send_eq.
    destruct (started m), (done m); simpl; try reflexivity.
    destruct (GetTransition (States m) (curr m) e) as [tran|]; [|reflexivity].
    simpl. apply transition_machine.
  - unfold machine_after, Stop, bind, ret. rewrite stop_eq. reflexivity.
  - unfold machine_after. rewrite Reset_eq. destruct (done m); reflexivity.
Qed.

(** *** What every reachable machine satisfies *)

Lemma follows_snoc (stt : StateTransitionTable W) s l t e tran :
  follows stt s l t = true ->
  GetTransition stt t e = Some tran ->
  follows stt s (l ++ [mkHistoryRecord t e]) (To tran) = true.
Proof.
  revert s. induction l as [|r l IH]; intros s Hf Ht; simpl in *.
  - apply bool_decide_eq_true in Hf. subst t. rewrite Ht.
    rewrite !bool_decide_eq_true_2 by reflexivity. reflexivity.
  - apply andb_true_iff in Hf as [Hr Hf]. rewrite Hr. simpl.
    destruct (GetTransition stt s (rec_Event r)) as [tr|]; [|discriminate].
    apply IH; assumption.
Qed.

Lemma consistent_New (stt : StateTransitionTable W) : consistent stt (New stt).
Proof.
  unfold consistent, New. simpl.
  repeat split; try reflexivity; try discriminate.
Qed.

Lemma consistent_run_op (stt : StateTransitionTable W) op m h :
  consistent stt m -> consistent stt (machine_after (run_op op) m h).
Proof.
  intros Hc. rewrite run_op_machine.
  pose proof Hc as (Ht & He & Hu & Hk & Hw).
  destruct op as [s|e| |].
  - destruct (size (States m) =? 0)%nat; [exact Hc|].
    destruct (States m !! s) as [evs|] eqn:Hs; [|exact Hc].
    destruct (done m) eqn:Hd; [exact Hc|].
    destruct (started m) eqn:Hst; [exact Hc|].
    destruct (Hu eq_refl) as [Hh Hci].
    unfold consistent; simpl. rewrite Hh. simpl.
    split; [exact Ht|]. split; [exact He|].
    split; [discriminate|]. split.
    + intros _. rewrite <- Ht, Hs. eauto.
    + apply bool_decide_eq_true_2. reflexivity.
  - destruct (started m) eqn:Hst; simpl; [|exact Hc].
    destruct (done m) eqn:Hd; [exact Hc|].
    destruct (GetTransition (States m) (curr m) e) as [tran|] eqn:Hg;
      [|exact Hc].
    destruct (fst (guard_result tran (curr m) e (world h))); [|exact Hc].
    rewrite Ht in Hg. pose proof (follows_snoc _ _ _ _ _ _ Hw Hg) as Hw'.
    unfold consistent, moved.
    destruct (IsFinal tran); simpl; rewrite ?Hd, ?Hst, ?last_snoc; simpl;
      (split; [exact Ht|]; split; [first [reflexivity|exact He]|];
       split; [discriminate|]; split; [exact Hk|exact Hw']).
  - unfold consistent.
    destruct (last (hist m)) as [r|] eqn:Hl; simpl; rewrite ?Hl; simpl;
      (split; [exact Ht|]; split; [|split; [exact Hu|split; [exact Hk|exact Hw]]]).
    + reflexivity.
    + rewrite He. destruct (done m); reflexivity.
  - destruct (done m) eqn:Hd; [|exact Hc].
    unfold consistent; simpl.
    split; [exact Ht|]. split; [reflexivity|]. split; [auto|].
    split; [discriminate|]. apply bool_decide_eq_true_2. reflexivity.
Qed.

Lemma consistent_run_ops (stt : StateTransitionTable W) ops m h :
  consistent stt m -> consistent stt (machine_after (run_ops ops) m h).
Proof.
  revert m h. induction ops as [|op ops IH]; intros m h Hc.
  - exact Hc.
  - destruct (run_ops_cons op ops m h) as (-> & _ & _).
    apply IH, consistent_run_op, Hc.
Qed.

Lemma reachable_consistent (stt : StateTransitionTable W) m :
  reachable stt m -> consistent stt m.
Proof.
  induction 1 as [|m op h _ IH]; [apply consistent_New|].
  apply consistent_run_op, IH.
Qed.

Lemma reachable_run_ops (stt : StateTransitionTable W) ops m h :
  reachable stt m -> reachable stt (machine_after (run_ops ops) m h).
Proof.
  revert m h. induction ops as [|op ops IH]; intros m h Hr.
  - exact Hr.
  - destruct (run_ops_cons op ops m h) as (-> & _ & _).
    apply IH, reachable_op, Hr.
Qed.

Lemma run_op_States op m h : States (machine_after (run_op op) m h) = States m.
Proof.
  rewrite run_op_machine. unfold moved.
  repeat match goal with
         | |- context [match ?c with _ => _ end] => destruct c
         end; reflexivity.
Qed.

Lemma run_op_host op m h :
  (forall e, op <> OpSend e) -> host_after (run_op op) m h = h.
Proof.
  intros Hns. unfold host_after. destruct op as [s|e| |]; simpl.
  - rewrite Start_eq.
    repeat match goal with
           | |- context [match ?c with _ => _ end] => destruct c
           end; reflexivity.
  - destruct (Hns e eq_refl).
  - unfold Stop, bind, ret. rewrite stop_eq. reflexivity.
  - rewrite Reset_eq. destruct (done m); reflexivity.
Qed.

Lemma run_op_hist op m h :
  op <> OpReset ->
  hist (machine_after (run_op op) m h) = hist m \/
  exists e, op = OpSend e /\
    hist (machine_after (run_op op) m h) = hist m ++ [mkHistoryRecord (curr m) e].
Proof.
  intros Hnr. rewrite run_op_machine. destruct op as [s|e| |].
  - left. repeat match goal with
                 | |- context [match ?c with _ => _ end] => destruct c
                 end; reflexivity.
  - destruct (negb (started m)); [auto|]. destruct (done m); [auto|].
    destruct (GetTransition (States m) (curr m) e) as [tran|]; [|auto].
    destruct (fst (guard_result tran (curr m) e (world h))); [|auto].
    right. exists e. split; [reflexivity|].
    unfold moved. destruct (IsFinal tran); reflexivity.
  - left. destruct (last (hist m)); reflexivity.
  - congruence.
Qed.

(** A stopped machine that is consistent does not react to a call other
    than [Reset]. *)
Lemma stopped_op_inert (stt : StateTransitionTable W) op m h :
  consistent stt m -> done m = true -> op <> OpReset ->
  run_op op m h = (result_of (run_op op) m h, m, h) /\
  (result_of (run_op op) m h = None <-> op = OpStop).
Proof.
  intros (_ & He & _) Hd Hnr. rewrite Hd in He. unfold result_of.
  destruct op as [s|e| |]; simpl.
  - rewrite Start_eq, Hd.
    destruct (size (States m) =? 0)%nat; [split; [reflexivity|split; discriminate]|].
    destruct (States m !! s); split; try reflexivity; split; discriminate.
  - rewrite Send_eq, Hd.
    destruct (started m); simpl; split; try reflexivity; split; discriminate.
  - unfold Stop, bind, ret. rewrite stop_eq. simpl. split; [|tauto].
    destruct m as [st c d ev hi ini sta]. simpl in *. subst d ev.
    destruct (last hi); reflexivity.
  - congruence.
Qed.

(** *** Sending, resetting and stopping, case by case *)

(** X5: [Send] checks, in this order, that the machine was started, that it
    is not stopped, and that the table has a transition for the current
    state and the event; it returns no error exactly when all three hold.
    A machine that was stopped before it was ever started reports
    [ErrMachineNotStarted]. *)
Theorem send_spec e m h :
  let r := result_of (Send e) m h in
  (started m = false ->
     r = Some (ErrMachineNotStarted "machine has not started")) /\
  (started m = true -> done m = true ->
     r = Some (ErrMachineStopped (endevt m)
                 "machine is done and not accepting transitions")) /\
  (started m = true -> done m = false ->
   GetTransition (States m) (curr m) e = None ->
     r = Some (ErrMissingTransition (curr m) e
                 "no transition found for event in current state")) /\
  (r = None <->
     started m = true /\ done m = false /\
     is_Some (GetTransition (States m) (curr m) e)).
Proof.
  unfold result_of. rewrite Send_eq.
  destruct (started m), (done m); simpl;
    try (repeat split; intros; try discriminate; try reflexivity;
         repeat match goal with H : _ /\ _ |- _ => destruct H end;
         discriminate).
  destruct (GetTransition (States m) (curr m) e) as [tran|]; simpl;
    repeat split; intros; try discriminate; try reflexivity; eauto.
  destruct H as (_ & _ & [x Hx]). discriminate.
Qed.

(** X6: [Reset] fails with [ErrMachineNotStopped], changing nothing, on a
    machine that is not stopped; on a stopped machine it succeeds, clears
    both flags, the terminal event and the history, puts the machine back
    in its initial state, and keeps the table and the initial state.  It
    runs no hook. *)
Theorem reset_spec m h :
  let r := result_of Reset m h in
  let m' := machine_after Reset m h in
  host_after Reset m h = h /\
  (done m = false ->
     r = Some (ErrMachineNotStopped "machine has not stopped") /\ m' = m) /\
  (done m = true ->
     r = None /\
     m' = {| States := States m; curr := initial m; done := false;
             endevt := None; hist := []; initial := initial m;
             started := false |} /\
     lifecycle m' = unstarted).
Proof.
  unfold result_of, machine_after, host_after. rewrite Reset_eq.
  destruct (done m); simpl; repeat split; intros; try discriminate;
    reflexivity.
Qed.

(** X7: [Stop] runs no hook and touches two fields only: it sets the
    stopped flag, and sets the terminal event to the event of the last
    history record when there is one; with an empty history the terminal
    event is left as it was. *)
Theorem stop_frame m h :
  let m' := machine_after Stop m h in
  host_after Stop m h = h /\
  States m' = States m /\ curr m' = curr m /\ hist m' = hist m /\
  initial m' = initial m /\ started m' = started m /\
  done m' = true /\
  endevt m' = match last (hist m) with
              | Some r => Some (rec_Event r)
              | None => endevt m
              end.
Proof.
  unfold machine_after, host_after, Stop. rewrite stop_eq. simpl.
  destruct (last (hist m)); simpl; repeat split; reflexivity.
Qed.

(** X8: no sequence of method calls changes the table the machine is
    bound to. *)
Theorem table_never_changes ops m h :
  States (machine_after (run_ops ops) m h) = States m.
Proof.
  revert m h. induction ops as [|op ops IH]; intros m h; [reflexivity|].
  destruct (run_ops_cons op ops m h) as (-> & _ & _).
  rewrite IH. apply run_op_States.
Qed.

(** X9: the history only grows as long as [Reset] is not called: after any
    sequence of [Start], [Send] and [Stop] the old history is a prefix of
    the new one, and it has grown by at most one record per call. *)
Theorem history_append_only ops m h :
  Forall (fun op => op <> OpReset) ops ->
  hist m `prefix_of` hist (machine_after (run_ops ops) m h) /\
  (length (hist (machine_after (run_ops ops) m h))
   <= length (hist m) + length ops)%nat.
Proof.
  revert m h. induction ops as [|op ops IH]; intros m h Hall.
  - simpl. split; [reflexivity|]. unfold machine_after. simpl. lia.
  - apply Forall_cons in Hall as [Hop Hall].
    destruct (run_ops_cons op ops m h) as (-> & _ & _).
    destruct (IH (machine_after (run_op op) m h)
                 (host_after (run_op op) m h) Hall) as [Hpre Hlen].
    destruct (run_op_hist op m h Hop) as [Heq|(e & _ & Heq)];
      rewrite Heq in Hpre, Hlen.
    + split; [exact Hpre|]. simpl. lia.
    + split.
      * etransitivity; [|exact Hpre]. apply prefix_app_r. reflexivity.
      * rewrite length_app in Hlen. simpl in *. lia.
Qed.

(** *** Reachable machines *)

(** X10: on a reachable machine the terminal event is set exactly while
    the machine is stopped and the history is not empty, and it is then
    the event of the last history record. *)
Theorem reachable_terminal_event (stt : StateTransitionTable W) m :
  reachable stt m ->
  endevt m = (if done m then rec_Event <$> last (hist m) else None).
Proof. intros Hr. apply (reachable_consistent stt m Hr). Qed.

(** X11: on a reachable machine the history is a walk through the table
    from the initial state to the current state: every record holds the
    state the machine was in and an event with a transition from that
    state, and the next record (or the current state) is that
    transition's [To]. *)
Theorem reachable_history_walk (stt : StateTransitionTable W) m :
  reachable stt m ->
  follows stt (initial m) (hist m) (curr m) = true.
Proof. intros Hr. apply (reachable_consistent stt m Hr). Qed.

(** X12: a reachable machine that is not started has an empty history and
    is in its initial state; one that is started has an initial state
    that is a key of the table. *)
Theorem reachable_started_flag (stt : StateTransitionTable W) m :
  reachable stt m ->
  States m = stt /\
  (started m = false -> History m = [] /\ Current m = initial m) /\
  (started m = true -> is_Some (stt !! initial m)).
Proof.
  intros Hr. destruct (reachable_consistent stt m Hr) as (Ht & _ & Hu & Hk & _).
  auto.
Qed.

(** X13: a reachable machine that is stopped is inert until it is reset:
    any sequence of [Start], [Send] and [Stop] leaves the machine and the
    host as they are, and every [Start] and [Send] in it returns an
    error. *)
Theorem stopped_inert (stt : StateTransitionTable W) ops m h :
  reachable stt m -> done m = true ->
  Forall (fun op => op <> OpReset) ops ->
  machine_after (run_ops ops) m h = m /\
  host_after (run_ops ops) m h = h /\
  Forall2 (fun op r => r = None <-> op = OpStop)
    ops (result_of (run_ops ops) m h).
Proof.
  intros Hr Hd Hall. apply reachable_consistent in Hr.
  induction ops as [|op ops IH].
  - repeat split. constructor.
  - apply Forall_cons in Hall as [Hop Hall].
    destruct (run_ops_cons op ops m h) as (-> & -> & ->).
    destruct (stopped_op_inert stt op m h Hr Hd Hop) as [Hrun Hres].
    assert (Em : machine_after (run_op op) m h = m)
      by (unfold machine_after; rewrite Hrun; reflexivity).
    assert (Eh : host_after (run_op op) m h = h)
      by (unfold host_after; rewrite Hrun; reflexivity).
    rewrite Em, Eh.
    destruct (IH Hall) as (Hm & Hh & Hrs).
    split; [exact Hm|]. split; [exact Hh|].
    constructor; [exact Hres|exact Hrs].
Qed.

(** X14: after any run, a started machine can be rewound: [Stop], [Reset]
    and [Start] with the recorded initial state all succeed, run no hook,
    and leave a running machine in its initial state with an empty
    history and no terminal event. *)
Theorem rewind (stt : StateTransitionTable W) m h :
  reachable stt m -> started m = true ->
  run_ops [OpStop; OpReset; OpStart (initial m)] m h =
    ([None; None; None],
     {| States := stt; curr := initial m; done := false; endevt := None;
        hist := []; initial := initial m; started := true |},
     h).
Proof.
  intros Hr Hst.
  destruct (reachable_consistent stt m Hr) as (Ht & _ & _ & Hk & _).
  specialize (Hk Hst). pose proof Hk as Hsz. rewrite <- Ht in Hsz.
  apply key_nonempty in Hsz. destruct Hk as [evs Hk].
  cbn [run_ops run_op]. unfold Stop. unfold bind at 1 2 3 4 5 6 7, ret.
  rewrite stop_eq, Reset_eq. simpl. rewrite Start_eq.
  destruct (last (hist m)); simpl; rewrite Hsz, Ht, Hk; reflexivity.
Qed.

(** *** Errors and hooks *)

(** X15: every error a method returns carries a non-empty message. *)
Theorem errors_have_messages op m h err m' h' :
  run_op op m h = (Some err, m', h') -> Error err <> EmptyString.
Proof.
  destruct op as [s|e| |]; simpl.
  - rewrite Start_eq.
    repeat match goal with
           | |- context [match ?c with _ => _ end] => destruct c
           end; intros [= <- _ _]; discriminate.
  - rewrite Send_eq.
    repeat match goal with
           | |- context [match ?c with _ => _ end] => destruct c
           end; intros [= <- _ _] || intros [=]; discriminate.
  - unfold Stop, bind, ret. rewrite stop_eq. discriminate.
  - rewrite Reset_eq. destruct (done m); intros [= <- _ _] || intros [=];
      discriminate.
Qed.

(** X16: one [Send] calls the guard at most once and at most one of the
    two handlers, every call gets the state the machine was in when
    [Send] was called (the success handler too, although the machine has
    moved by then) and the event sent, and a [Send] that returns an error
    calls nothing. *)
Theorem send_hook_calls e m h :
  exists new,
    calls (host_after (Send e) m h) = calls h ++ new /\
    Forall (fun c => call_state c = curr m /\ call_event c = e) new /\
    (count_calls HGuard new <= 1)%nat /\
    (count_calls HOnSuccess new + count_calls HOnFail new <= 1)%nat /\
    (result_of (Send e) m h <> None -> new = []).
Proof.
  unfold host_after at 1, result_of. rewrite Send_eq.
  assert (Hnil : exists new : list Call,
             calls h = calls h ++ new /\
             Forall (fun c => call_state c = curr m /\ call_event c = e) new /\
             (count_calls HGuard new <= 1)%nat /\
             (count_calls HOnSuccess new + count_calls HOnFail new <= 1)%nat /\
             new = []).
  { exists []. rewrite app_nil_r. repeat split; auto; simpl; lia. }
  destruct (started m), (done m); simpl;
    try (destruct Hnil as (new & ? & ? & ? & ? & ?); exists new; tauto).
  destruct (GetTransition (States m) (curr m) e) as [tran|]; simpl;
    [|destruct Hnil as (new & ? & ? & ? & ? & ?); exists new; tauto].
  rewrite transition_calls. eexists. split; [reflexivity|].
  unfold hook_call, count_calls.
  destruct (Guard tran), (OnSuccess tran), (OnFail tran),
    (fst (guard_result tran (curr m) e (world h))); simpl;
    repeat split; try lia; try congruence;
    repeat constructor; reflexivity.
Qed.

(** X17: the lifecycle has no other edges than these: a machine becomes
    running only by a successful [Start] on an unstarted machine, and
    becomes unstarted only by a [Reset] of a stopped machine; so a running
    machine is never unstarted again without being stopped first, and a
    stopped machine never runs again without being reset first. *)
Theorem lifecycle_edges op m h :
  let m' := machine_after (run_op op) m h in
  (lifecycle m' = running ->
     lifecycle m = running \/
     (lifecycle m = unstarted /\
      exists s, op = OpStart s /\ is_Some (States m !! s) /\ Current m' = s)) /\
  (lifecycle m' = unstarted ->
     lifecycle m = unstarted \/ (lifecycle m = stopped /\ op = OpReset)).
Proof.
  cbv zeta. rewrite run_op_machine. unfold lifecycle, Current, moved.
  destruct (done m) eqn:Hd, (started m) eqn:Hst; destruct op as [s|e| |];
    simpl; rewrite ?Hd, ?Hst;
    repeat match goal with
           | |- context [if ?c then _ else _] =>
               destruct c eqn:?; simpl; rewrite ?Hd, ?Hst
           | |- context [match ?c with Some _ => _ | None => _ end] =>
               destruct c eqn:?; simpl; rewrite ?Hd, ?Hst
           end;
    split; intro; simpl in *; try discriminate; try congruence; auto.
  right. split; [reflexivity|]. exists s. eauto.
Qed.

End Properties.

(** * The documented example, step by step

    The scenario of the package documentation: the first [WorkComplete] is
    refused by the guard and flips the flag, the second one is final. *)

Example readme_run :
  let '(rs, m, h) :=
    run_ops [OpStart Readme.Begin; OpSend Readme.SetupDone;
             OpSend Readme.WorkComplete; OpSend Readme.WorkComplete;
             OpSend Readme.WorkComplete]
      Readme.machine Readme.host in
  rs = [None; None; None; None;
        Some (ErrMachineStopped (Some Readme.WorkComplete)
                "machine is done and not accepting transitions")] /\
  Current m = Readme.End /\
  History m = [mkHistoryRecord Readme.Begin Readme.SetupDone;
               mkHistoryRecord Readme.Middle Readme.WorkComplete] /\
  lifecycle m = stopped /\
  calls h = [mkCall HOnSuccess Readme.Begin Readme.SetupDone;
             mkCall HGuard Readme.Middle Readme.WorkComplete;
             mkCall HOnFail Readme.Middle Readme.WorkComplete;
             mkCall HGuard Readme.Middle Readme.WorkComplete;
             mkCall HOnSuccess Readme.Middle Readme.WorkComplete].
Proof. vm_compute. repeat split; reflexivity. Qed.

Example readme_events :
  GetEventsForState Readme.stt Readme.Begin = [Readme.SetupDone] /\
  GetStatesForEvent Readme.stt Readme.WorkComplete = [Readme.Middle] /\
  GetEventsForState Readme.stt Readme.End = [].
Proof. vm_compute. repeat split; reflexivity. Qed.

(** The cases of machine_test.go that fix an outcome, run on the model. *)
Example machine_tests :
  (* should err when states missing *)
  result_of (Start 1) (New (∅ : StateTransitionTable unit)) Fixture.host
    = Some (ErrMissingStates "no states set") /\
  (* should err when state not defined *)
  result_of (Start 1) (New ({[ 2%Z := ∅ ]} : StateTransitionTable unit))
    Fixture.host
    = Some (ErrStateNotDefined 1 "start state not defined in states") /\
  (* should err when machine already started *)
  result_of (run_ops [OpStart 1; OpStart 1]) (New Fixture.bare) Fixture.host
    = [None; Some (ErrMachineStarted "machine has already started")] /\
  (* should err when machine not started *)
  result_of (Send 1) (New (∅ : StateTransitionTable unit)) Fixture.host
    = Some (ErrMachineNotStarted "machine has not started") /\
  (* should err when machine stopped *)
  result_of (run_ops [OpStart 1; OpStop; OpSend 1])
    (New (Fixture.table None)) Fixture.host
    = [None; None;
       Some (ErrMachineStopped None
               "machine is done and not accepting transitions")] /\
  (* should stop machine when transition final *)
  result_of (run_ops [OpStart 1; OpSend 1; OpSend 1])
    (New (Fixture.table (Some Fixture.final_tran))) Fixture.host
    = [None; None;
       Some (ErrMachineStopped (Some 1%Z)
               "machine is done and not accepting transitions")] /\
  (* should err when machine not stopped *)
  result_of (run_ops [OpStart 1; OpReset]) (New Fixture.bare) Fixture.host
    = [None; Some (ErrMachineNotStopped "machine has not stopped")] /\
  (* should be correct state after transition *)
  Current (machine_after (run_ops [OpStart 1; OpSend 1])
             (New (Fixture.table (Some Fixture.to2))) Fixture.host) = 2%Z /\
  (* should be empty when no transitions occurred *)
  History (Fixture.started_on (Some Fixture.to2)) = [].
Proof. vm_compute. repeat split; reflexivity. Qed.

(** * The properties on the documented example and on the test fixtures *)

#[local] Open Scope Z_scope.

(** [send_guard_pass] on the first step of the documented example: the
    machine leaves [Begin] on [SetupDone]. *)
Lemma send_guard_pass_witness :
  let '(r, m', h') := Send Readme.SetupDone Readme.machine1 Readme.host1 in
  r = None /\
  hist m' = hist Readme.machine1
              ++ [mkHistoryRecord (curr Readme.machine1) Readme.SetupDone] /\
  curr m' = To Readme.setup_done /\
  calls h' = calls Readme.host1
               ++ hook_call HGuard (Guard Readme.setup_done)
                    (curr Readme.machine1) Readme.SetupDone
               ++ hook_call HOnSuccess (OnSuccess Readme.setup_done)
                    (curr Readme.machine1) Readme.SetupDone /\
  count_calls HOnSuccess (calls h') =
    (count_calls HOnSuccess (calls Readme.host1)
     + times (OnSuccess Readme.setup_done))%nat /\
  count_calls HOnFail (calls h') = count_calls HOnFail (calls Readme.host1) /\
  world h' = after_hook (OnSuccess Readme.setup_done)
               (curr Readme.machine1) Readme.SetupDone
               (snd (guard_result Readme.setup_done (curr Readme.machine1)
                       Readme.SetupDone (world Readme.host1))).
Proof.
  apply (send_guard_pass Readme.machine1 Readme.host1 Readme.SetupDone
           Readme.setup_done); reflexivity.
Defined.

(** C1 as stated fails on the transition [&cism.Transition{}] of the test
    "should be nil when transition successful": the machine is running, the
    transition is defined and has no guard, the send succeeds, and no
    success handler is invoked, since there is none. *)
Lemma send_guard_pass_without_handler :
  let m := Fixture.started_on (Some Fixture.zero_tran) in
  started m = true /\ done m = false /\
  GetTransition (States m) (curr m) 1 = Some Fixture.zero_tran /\
  Guard Fixture.zero_tran = None /\
  let '(r, m', h') := Send 1 m Fixture.host in
  r = None /\
  calls h' = [] /\
  count_calls HOnSuccess (calls h') <>
    (count_calls HOnSuccess (calls Fixture.host) + 1)%nat.
Proof. vm_compute. repeat split; try reflexivity. discriminate. Qed.

(** C2 fails on the code, on the machine of the test "should have correct
    transition history": after [Start(1)] and [Send(1)] over the transition
    [&cism.Transition{To: 2}] the machine is in state 2, and the one record
    of the history holds state 1, the state that was left. *)
Theorem history_record_holds_state_left :
  let m := Fixture.started_on (Some Fixture.to2) in
  let m' := machine_after (Send 1) m Fixture.host in
  result_of (Send 1) m Fixture.host = None /\
  Current m = 1 /\ Current m' = 2 /\ To Fixture.to2 = 2 /\
  History m' = [mkHistoryRecord 1 1] /\
  History m' <> [mkHistoryRecord (To Fixture.to2) 1].
Proof. vm_compute. repeat split; try reflexivity. discriminate. Qed.

(** [failed_op_leaves_machine_unchanged] on the documented example:
    [WorkComplete] has no transition from [Begin]. *)
Lemma failed_op_leaves_machine_unchanged_witness :
  result_of (run_op (OpSend Readme.WorkComplete)) Readme.machine1 Readme.host1 =
    Some (ErrMissingTransition Readme.Begin Readme.WorkComplete
            "no transition found for event in current state") /\
  machine_after (run_op (OpSend Readme.WorkComplete))
    Readme.machine1 Readme.host1 = Readme.machine1 /\
  host_after (run_op (OpSend Readme.WorkComplete))
    Readme.machine1 Readme.host1 = Readme.host1.
Proof.
  split; [reflexivity|].
  apply (failed_op_leaves_machine_unchanged (OpSend Readme.WorkComplete)
           Readme.machine1 Readme.host1
           (ErrMissingTransition Readme.Begin Readme.WorkComplete
              "no transition found for event in current state")).
  reflexivity.
Defined.

(** [send_guard_fail] on the documented example: the first [WorkComplete]
    is refused and the failure handler flips the flag. *)
Lemma send_guard_fail_witness :
  let '(r, m', h') := Send Readme.WorkComplete Readme.machine2 Readme.host2 in
  r = None /\
  m' = Readme.machine2 /\
  curr m' = curr Readme.machine2 /\ hist m' = hist Readme.machine2 /\
  calls h' = calls Readme.host2
               ++ [mkCall HGuard (curr Readme.machine2) Readme.WorkComplete]
               ++ hook_call HOnFail (OnFail Readme.work_complete)
                    (curr Readme.machine2) Readme.WorkComplete /\
  count_calls HOnFail (calls h') =
    (count_calls HOnFail (calls Readme.host2)
     + times (OnFail Readme.work_complete))%nat /\
  count_calls HOnSuccess (calls h') =
    count_calls HOnSuccess (calls Readme.host2) /\
  world h' = after_hook (OnFail Readme.work_complete)
               (curr Readme.machine2) Readme.WorkComplete
               (snd (guard_result Readme.work_complete (curr Readme.machine2)
                       Readme.WorkComplete (world Readme.host2))).
Proof.
  apply (send_guard_fail Readme.machine2 Readme.host2 Readme.WorkComplete
           Readme.work_complete); reflexivity.
Defined.

(** C5 as stated fails on a transition whose guard refuses and that has no
    failure handler: the send succeeds, nothing changes, and the only hook
    invoked is the guard. *)
Lemma send_guard_fail_without_handler :
  let m := Fixture.started_on (Some Fixture.refused) in
  started m = true /\ done m = false /\
  GetTransition (States m) (curr m) 1 = Some Fixture.refused /\
  fst (guard_result Fixture.refused (curr m) 1 (world Fixture.host)) = false /\
  let '(r, m', h') := Send 1 m Fixture.host in
  r = None /\
  calls h' = [mkCall HGuard 1 1] /\
  count_calls HOnFail (calls h') <>
    (count_calls HOnFail (calls Fixture.host) + 1)%nat.
Proof. vm_compute. repeat split; try reflexivity. discriminate. Qed.

(** [send_final_stops] on the documented example: the second
    [WorkComplete] passes the guard and is final. *)
Lemma send_final_stops_witness :
  let '(r, m', h') := Send Readme.WorkComplete Readme.machine3 Readme.host3 in
  r = None /\
  done m' = true /\ lifecycle m' = stopped /\
  forall e' h'',
    Send e' m' h'' =
      (Some (ErrMachineStopped (Some Readme.WorkComplete)
               "machine is done and not accepting transitions"), m', h'').
Proof.
  apply (send_final_stops Readme.machine3 Readme.host3 Readme.WorkComplete
           Readme.work_complete); reflexivity.
Defined.

(** C4 as stated fails on the machine of the test "should err when machine
    stopped" of [Start]: [Stop] on a machine that was never started takes
    it from unstarted to stopped, and [Start] then refuses it. *)
Lemma stop_enters_stopped_from_unstarted :
  let m := New Fixture.bare in
  let m' := machine_after (run_op OpStop) m Fixture.host in
  lifecycle m = unstarted /\ lifecycle m <> running /\
  lifecycle m' = stopped /\
  result_of (Start 1) m' Fixture.host =
    Some (ErrMachineStopped None "machine is done and cannot be started").
Proof. vm_compute. repeat split; try reflexivity. discriminate. Qed.

(** [stopped_entered_by_stop_or_final_send] on the documented example: the
    second [WorkComplete] stops the running machine. *)
Lemma stopped_entered_by_stop_or_final_send_witness :
  lifecycle Readme.machine3 <> stopped /\
  lifecycle (machine_after (run_op (OpSend Readme.WorkComplete))
               Readme.machine3 Readme.host3) = stopped /\
  (OpSend Readme.WorkComplete = OpStop \/
   exists e tran,
     OpSend Readme.WorkComplete = OpSend e /\
     lifecycle Readme.machine3 = running /\
     result_of (run_op (OpSend Readme.WorkComplete))
       Readme.machine3 Readme.host3 = None /\
     GetTransition (States Readme.machine3) (curr Readme.machine3) e
       = Some tran /\
     IsFinal tran = true /\
     fst (guard_result tran (curr Readme.machine3) e (world Readme.host3))
       = true).
Proof.
  split; [discriminate|]. split; [reflexivity|].
  apply (stopped_entered_by_stop_or_final_send (OpSend Readme.WorkComplete)
           Readme.machine3 Readme.host3); [discriminate|reflexivity].
Defined.

(** [start_stop_reset_round_trip] on the machine of the test "should start
    after reset". *)
Lemma start_stop_reset_round_trip_witness :
  let '(rs, m', h') :=
    run_ops [OpStart 1; OpStop; OpReset] (New Fixture.bare) Fixture.host in
  rs = [None; None; None] /\
  Current m' = 1 /\ History m' = [] /\ h' = Fixture.host /\
  lifecycle m' = unstarted /\
  exists m'', Start 1 m' h' = (None, m'', h') /\ lifecycle m'' = running.
Proof.
  apply (start_stop_reset_round_trip 1 (New Fixture.bare) Fixture.host);
    [eexists; reflexivity|reflexivity|reflexivity].
Defined.

(** C9 as stated fails on [&cism.Machine{}], whose table is empty, and on
    a start state that is not in the table: [Stop] is idempotent there as
    everywhere, and the [Start] that follows fails with [ErrMissingStates],
    respectively [ErrStateNotDefined], after one [Stop] and after two. *)
Lemma start_after_stop_not_machine_stopped :
  let m := New (∅ : StateTransitionTable unit) in
  let m1 := machine_after Stop m Fixture.host in
  let m2 := machine_after Stop m1 Fixture.host in
  let b1 := machine_after Stop (New Fixture.bare) Fixture.host in
  let b2 := machine_after Stop b1 Fixture.host in
  (m2 = m1 /\
   result_of (Start 1) m1 Fixture.host = Some (ErrMissingStates "no states set") /\
   result_of (Start 1) m2 Fixture.host = Some (ErrMissingStates "no states set")) /\
  (b2 = b1 /\
   result_of (Start 2) b1 Fixture.host =
     Some (ErrStateNotDefined 2 "start state not defined in states") /\
   result_of (Start 2) b2 Fixture.host =
     Some (ErrStateNotDefined 2 "start state not defined in states")) /\
  (forall ev msg,
     result_of (Start 1) m1 Fixture.host <> Some (ErrMachineStopped ev msg)).
Proof. vm_compute. repeat split; try reflexivity. discriminate. Qed.

(** [nil_transition_listed_but_missing] on the machine of the test "should
    err when no transition for event", whose table is [{1: {1: nil}}]. *)
Lemma nil_transition_listed_but_missing_witness :
  GetTransition (States (Fixture.started_on None)) 1 1 = None /\
  Send 1 (Fixture.started_on None) Fixture.host =
    (Some (ErrMissingTransition 1 1
             "no transition found for event in current state"),
     Fixture.started_on None, Fixture.host) /\
  1 ∈ GetEventsForState (States (Fixture.started_on None)) 1.
Proof.
  apply (nil_transition_listed_but_missing (Fixture.started_on None)
           Fixture.host 1 1 {[ 1 := None ]}); reflexivity.
Defined.

(** [start_spec] on the documented example: the table has [Begin] and the
    new machine is neither stopped nor started, so [Start(Begin)] succeeds. *)
Lemma start_spec_witness :
  States Readme.machine <> ∅ /\ is_Some (States Readme.machine !! Readme.Begin) /\
  done Readme.machine = false /\ started Readme.machine = false /\
  result_of (Start Readme.Begin) Readme.machine Readme.host = None /\
  Readme.machine1 =
    {| States := Readme.stt; curr := Readme.Begin; done := false;
       endevt := None; hist := []; initial := Readme.Begin;
       started := true |} /\
  lifecycle Readme.machine1 = running.
Proof.
  assert (Hne : States Readme.machine <> ∅).
  { intros Hem. apply (f_equal (fun t => t !! Readme.Begin)) in Hem.
    vm_compute in Hem. discriminate. }
  assert (Hk : is_Some (States Readme.machine !! Readme.Begin)).
  { eexists. reflexivity. }
  split; [exact Hne|]. split; [exact Hk|].
  split; [reflexivity|]. split; [reflexivity|].
  pose proof (start_spec Readme.Begin Readme.machine Readme.host) as Hs.
  cbv zeta in Hs.
  destruct Hs as (_ & _ & _ & _ & _ & _ & Hok).
  exact (Hok Hne Hk eq_refl eq_refl).
Defined.

(** [stop_idempotent] on the machine of the test "should err when machine
    stopped": state 1 is a key of the table. *)
Lemma stop_idempotent_witness :
  let m1 := machine_after Stop (New Fixture.bare) Fixture.host in
  let m2 := machine_after Stop m1 Fixture.host in
  is_Some (States (New Fixture.bare) !! 1) /\
  m2 = m1 /\
  Start 1 m1 Fixture.host =
    (Some (ErrMachineStopped None "machine is done and cannot be started"),
     m1, Fixture.host) /\
  Start 1 m2 Fixture.host =
    (Some (ErrMachineStopped None "machine is done and cannot be started"),
     m2, Fixture.host).
Proof.
  assert (Hk : is_Some (States (New Fixture.bare) !! 1)).
  { eexists. reflexivity. }
  pose proof (stop_idempotent (New Fixture.bare) Fixture.host) as Hs.
  cbv zeta in Hs. destruct Hs as (H21 & _ & _ & Hstart).
  split; [exact Hk|]. split; [exact H21|]. exact (Hstart 1 Hk).
Defined.

(** * The further properties on the documented example *)

Lemma readme_machine1_reachable : reachable Readme.stt Readme.machine1.
Proof.
  exact (reachable_op Readme.stt Readme.machine (OpStart Readme.Begin)
           Readme.host (reachable_New Readme.stt)).
Qed.

Lemma readme_machine3_reachable : reachable Readme.stt Readme.machine3.
Proof.
  exact (reachable_op Readme.stt Readme.machine2 (OpSend Readme.WorkComplete)
           Readme.host2
           (reachable_op Readme.stt Readme.machine1 (OpSend Readme.SetupDone)
              Readme.host1 readme_machine1_reachable)).
Qed.

Lemma readme_machine4_reachable : reachable Readme.stt Readme.machine4.
Proof.
  exact (reachable_op Readme.stt Readme.machine3 (OpSend Readme.WorkComplete)
           Readme.host3 readme_machine3_reachable).
Qed.

(** [GetTransition_listed] on the documented example. *)
Lemma GetTransition_listed_witness :
  GetTransition Readme.stt Readme.Middle Readme.WorkComplete
    = Some Readme.work_complete /\
  Readme.WorkComplete ∈ GetEventsForState Readme.stt Readme.Middle /\
  Readme.Middle ∈ GetStatesForEvent Readme.stt Readme.WorkComplete.
Proof.
  split; [reflexivity|].
  apply (proj1 (GetTransition_listed Readme.stt Readme.Middle
                  Readme.WorkComplete) Readme.work_complete).
  reflexivity.
Defined.

(** [history_append_only] on the rest of the documented run. *)
Lemma history_append_only_witness :
  hist Readme.machine1 `prefix_of`
    hist (machine_after
            (run_ops [OpSend Readme.SetupDone; OpSend Readme.WorkComplete;
                      OpSend Readme.WorkComplete; OpStop])
            Readme.machine1 Readme.host1) /\
  (length (hist (machine_after
                   (run_ops [OpSend Readme.SetupDone; OpSend Readme.WorkComplete;
                             OpSend Readme.WorkComplete; OpStop])
                   Readme.machine1 Readme.host1))
   <= length (hist Readme.machine1) + 4)%nat.
Proof.
  apply (history_append_only
           [OpSend Readme.SetupDone; OpSend Readme.WorkComplete;
            OpSend Readme.WorkComplete; OpStop]
           Readme.machine1 Readme.host1).
  repeat constructor; discriminate.
Defined.

(** [reachable_terminal_event] on the stopped machine of the documented
    run: the terminal event is [WorkComplete]. *)
Lemma reachable_terminal_event_witness :
  endevt Readme.machine4 =
    (if done Readme.machine4
     then rec_Event <$> last (hist Readme.machine4) else None).
Proof.
  apply (reachable_terminal_event Readme.stt Readme.machine4).
  exact readme_machine4_reachable.
Defined.

(** [reachable_history_walk] on the stopped machine of the documented run,
    whose history goes from [Begin] over [Middle] to [End]. *)
Lemma reachable_history_walk_witness :
  follows Readme.stt (initial Readme.machine4) (hist Readme.machine4)
    (curr Readme.machine4) = true.
Proof.
  apply (reachable_history_walk Readme.stt Readme.machine4).
  exact readme_machine4_reachable.
Defined.

(** [reachable_started_flag] on the started machine of the documented run. *)
Lemma reachable_started_flag_witness :
  States Readme.machine1 = Readme.stt /\
  (started Readme.machine1 = false ->
     History Readme.machine1 = [] /\ Current Readme.machine1 = initial Readme.machine1) /\
  (started Readme.machine1 = true ->
     is_Some (Readme.stt !! initial Readme.machine1)).
Proof.
  apply (reachable_started_flag Readme.stt Readme.machine1).
  exact readme_machine1_reachable.
Defined.

(** [stopped_inert] on the stopped machine of the documented run. *)
Lemma stopped_inert_witness :
  machine_after (run_ops [OpStart Readme.Begin; OpSend Readme.SetupDone; OpStop])
    Readme.machine4 Readme.host4 = Readme.machine4 /\
  host_after (run_ops [OpStart Readme.Begin; OpSend Readme.SetupDone; OpStop])
    Readme.machine4 Readme.host4 = Readme.host4 /\
  Forall2 (fun op r => r = None <-> op = OpStop)
    [OpStart Readme.Begin; OpSend Readme.SetupDone; OpStop]
    (result_of (run_ops [OpStart Readme.Begin; OpSend Readme.SetupDone; OpStop])
       Readme.machine4 Readme.host4).
Proof.
  apply (stopped_inert Readme.stt
           [OpStart Readme.Begin; OpSend Readme.SetupDone; OpStop]
           Readme.machine4 Readme.host4).
  - exact readme_machine4_reachable.
  - reflexivity.
  - repeat constructor; discriminate.
Defined.

(** [rewind] in the middle of the documented run. *)
Lemma rewind_witness :
  run_ops [OpStop; OpReset; OpStart (initial Readme.machine3)]
    Readme.machine3 Readme.host3 =
    ([None; None; None],
     {| States := Readme.stt; curr := initial Readme.machine3; done := false;
        endevt := None; hist := []; initial := initial Readme.machine3;
        started := true |},
     Readme.host3).
Proof.
  apply (rewind Readme.stt Readme.machine3 Readme.host3).
  - exact readme_machine3_reachable.
  - reflexivity.
Defined.

(** [errors_have_messages] on the documented example: [WorkComplete] has
    no transition from [Begin]. *)
Lemma errors_have_messages_witness :
  Error (ErrMissingTransition Readme.Begin Readme.WorkComplete
           "no transition found for event in current state") <> EmptyString.
Proof.
  apply (errors_have_messages (OpSend Readme.WorkComplete)
           Readme.machine1 Readme.host1
           (ErrMissingTransition Readme.Begin Readme.WorkComplete
              "no transition found for event in current state")
           Readme.machine1 Readme.host1).
  reflexivity.
Defined.
